(** * Digital Egiz ML service: dispatcher and channel lifecycle

    A shallow embedding of [examples/ml-service/main.py]: the model
    registry [MODELS], the dispatcher [make_prediction], the Kafka
    ingress loop [consume_kafka_messages], the connection manager
    [start_kafka] / [shutdown_event] and the HTTP handlers
    [health_check], [get_models] and [predict].

    Python values are an inductive type, module globals and the
    observable effects (log records, model invocations, records handed
    to the producer) live in an explicit [World], and coroutines are
    computations in a state-and-exception monad [M]. *)

From Stdlib Require Import List String ZArith QArith Bool DecimalString.
Import ListNotations.
Set Warnings "-register-all".
Local Close Scope Q_scope.
Local Open Scope string_scope.
Local Open Scope list_scope.

(** ** Python values *)

(** What [json.loads] can return, and what the handlers pass around.
    A [float] is represented by its rational value. A [dict] is an
    association list in insertion order; its keys are strings, as for
    every JSON object and for every dict of this program. *)
Inductive pyval : Type :=
| PNone
| PBool (b : bool)
| PInt (z : Z)
| PFloat (q : Q)
| PStr (s : string)
| PList (l : list pyval)
| PDict (d : list (string * pyval)).

Definition pydict := list (string * pyval).

(** [d.get(key)] on the association list. *)
Fixpoint dict_get {A : Type} (key : string) (d : list (string * A)) : option A :=
  match d with
  | [] => None
  | (k, v) :: d' => if String.eqb k key then Some v else dict_get key d'
  end.

(** [list(d.keys())]. *)
Definition keys {A : Type} (d : list (string * A)) : list string := map fst d.

(** [key in d]. *)
Definition dict_mem {A : Type} (key : string) (d : list (string * A)) : bool :=
  match dict_get key d with Some _ => true | None => false end.

(** Python truth value, as tested by [not x] and [if x]. *)
Definition truthy (v : pyval) : bool :=
  match v with
  | PNone => false
  | PBool b => b
  | PInt z => negb (Z.eqb z 0)
  | PFloat q => negb (Z.eqb (Qnum q) 0)
  | PStr s => negb (String.eqb s "")
  | PList l => match l with [] => false | _ => true end
  | PDict d => match d with [] => false | _ => true end
  end.

(** An f-string kept unrendered: literal pieces and interpolated values. *)
Definition fstring := list (string + pyval).

(** ** Exceptions, log records and the world *)

(** Subclasses of [Exception]. [HTTPException] is the one class the
    program raises itself; every other exception is identified by its
    class name. *)
Inductive exn : Type :=
| HTTPException (status_code : nat) (detail : fstring)
| PyException (cls : string) (msg : string).

Definition exn_class (e : exn) : string :=
  match e with
  | HTTPException _ _ => "HTTPException"
  | PyException cls _ => cls
  end.

(** The calls made on [logger], with the interpolated value kept. *)
Inductive log_record : Type :=
| Info_producer_started
| Info_consumer_started (topic : string)
| Info_received (payload : pyval)
| Info_sent (topic : string)
| Error_invalid_message
| Error_processing (e : exn)
| Error_start_failed (e : exn)
| Error_consumer (e : exn).

Definition is_error (r : log_record) : bool :=
  match r with
  | Error_invalid_message | Error_processing _
  | Error_start_failed _ | Error_consumer _ => true
  | _ => false
  end.

(** An [AIOKafkaProducer] object, by the part of its life cycle it is in. *)
Inductive producer : Type :=
| Producer_created
| Producer_started
| Producer_closed.

(** The task created for [consume_kafka_messages]: pending until
    something cancels it. *)
Inductive task : Type :=
| Task_pending
| Task_cancelled.

Record World : Type := mkWorld {
  (* module globals *)
  kafka_producer : option producer;
  kafka_consumer_task : option task;
  (* the event loop and the broker *)
  tasks : list task;
  broker_up : bool;
  (* the position in the stream of random draws, UUIDs and clock readings *)
  entropy : nat;
  (* observable effects, oldest first *)
  log : list log_record;
  invocations : list (pyval * pyval);
  outbox : list (string * pyval)
}.

Definition set_kafka_producer (p : option producer) (w : World) : World :=
  mkWorld p (kafka_consumer_task w) (tasks w) (broker_up w) (entropy w)
          (log w) (invocations w) (outbox w).

Definition set_tasks (t : list task) (w : World) : World :=
  mkWorld (kafka_producer w) (kafka_consumer_task w) t (broker_up w) (entropy w)
          (log w) (invocations w) (outbox w).

Definition set_entropy (n : nat) (w : World) : World :=
  mkWorld (kafka_producer w) (kafka_consumer_task w) (tasks w) (broker_up w) n
          (log w) (invocations w) (outbox w).

Definition set_log (l : list log_record) (w : World) : World :=
  mkWorld (kafka_producer w) (kafka_consumer_task w) (tasks w) (broker_up w)
          (entropy w) l (invocations w) (outbox w).

Definition set_invocations (i : list (pyval * pyval)) (w : World) : World :=
  mkWorld (kafka_producer w) (kafka_consumer_task w) (tasks w) (broker_up w)
          (entropy w) (log w) i (outbox w).

Definition set_outbox (o : list (string * pyval)) (w : World) : World :=
  mkWorld (kafka_producer w) (kafka_consumer_task w) (tasks w) (broker_up w)
          (entropy w) (log w) (invocations w) o.

(** The world a dispatch leaves when the callable was called once. *)
Definition after_call (model_id features : pyval) (n : nat) (w : World) : World :=
  set_entropy n (set_invocations (invocations w ++ [(model_id, features)]) w).

Ltac unfold_world :=
  unfold after_call, set_kafka_producer, set_tasks, set_entropy, set_log,
         set_invocations, set_outbox in *;
  cbn [kafka_producer kafka_consumer_task tasks broker_up entropy log
       invocations outbox] in *.

(** ** The monad of coroutines *)

(** A computation runs in a world and either returns or raises. *)
Definition M (A : Type) : Type := World -> (exn + A) * World.

Definition ret {A : Type} (a : A) : M A := fun w => (inr a, w).

Definition raise {A : Type} (e : exn) : M A := fun w => (inl e, w).

Definition bind {A B : Type} (m : M A) (k : A -> M B) : M B :=
  fun w =>
    match m w with
    | (inr a, w') => k a w'
    | (inl e, w') => (inl e, w')
    end.

(** [try: body / except Exception as e: handler e]. *)
Definition try_except {A : Type} (body : M A) (handler : exn -> M A) : M A :=
  fun w =>
    match body w with
    | (inr a, w') => (inr a, w')
    | (inl e, w') => handler e w'
    end.

(** [try: body / finally: cleanup]. *)
Definition try_finally {A : Type} (body : M A) (cleanup : M unit) : M A :=
  fun w =>
    match body w with
    | (inr a, w') =>
        match cleanup w' with
        | (inr _, w'') => (inr a, w'')
        | (inl e, w'') => (inl e, w'')
        end
    | (inl e, w') =>
        match cleanup w' with
        | (inr _, w'') => (inl e, w'')
        | (inl e', w'') => (inl e', w'')
        end
    end.

Declare Scope py_scope.
Delimit Scope py_scope with py.
Notation "x <- m ;; k" := (bind m (fun x => k))
  (at level 61, m at next level, right associativity) : py_scope.
Notation "m ;; k" := (bind m (fun _ => k))
  (at level 61, right associativity) : py_scope.
Local Open Scope py_scope.

Definition get_world : M World := fun w => (inr w, w).
Definition modify (f : World -> World) : M unit := fun w => (inr tt, f w).

Definition logger (r : log_record) : M unit :=
  modify (fun w => set_log (log w ++ [r]) w).

(** One draw from the stream of randomness: returns the position drawn. *)
Definition draw : M nat :=
  fun w => (inr (entropy w), set_entropy (S (entropy w)) w).

(** ** Configuration *)

Definition KAFKA_INPUT_TOPIC : string := "ml.input.v1".
Definition KAFKA_OUTPUT_TOPIC : string := "ml.output.v1".

(** ** The Kafka client, as the program uses it *)

(** [await kafka_producer.start()]: fails when the broker cannot be reached. *)
Definition producer_start : M unit :=
  fun w =>
    if broker_up w
    then (inr tt, set_kafka_producer (Some Producer_started) w)
    else (inl (PyException "KafkaConnectionError" "unable to bootstrap"), w).

(** [await kafka_producer.stop()]. *)
Definition producer_stop : M unit :=
  modify (set_kafka_producer (Some Producer_closed)).

(** [await kafka_producer.send(topic, value)]: the record is accepted
    by a started producer whose broker is reachable. *)
Definition producer_send (topic : string) (value : pyval) : M unit :=
  fun w =>
    match kafka_producer w with
    | Some Producer_started =>
        if broker_up w
        then (inr tt, set_outbox (outbox w ++ [(topic, value)]) w)
        else (inl (PyException "KafkaTimeoutError" "metadata"), w)
    | Some _ => (inl (PyException "ProducerClosed" ""), w)
    | None => (inl (PyException "AttributeError" "send"), w)
    end.

(** [await consumer.start()] and [await consumer.stop()]. *)
Definition consumer_start : M unit :=
  fun w =>
    if broker_up w
    then (inr tt, w)
    else (inl (PyException "KafkaConnectionError" "unable to bootstrap"), w).

Definition consumer_stop : M unit := ret tt.

(** [asyncio.create_task(...)]; the task object returned is dropped by
    the caller, so [kafka_consumer_task] keeps its initial [None]. *)
Definition create_task : M unit :=
  modify (fun w => set_tasks (tasks w ++ [Task_pending]) w).

(** ** Pydantic models *)

(** [Union[float, int, str, bool]]. *)
Inductive scalar : Type :=
| SFloat (q : Q)
| SInt (z : Z)
| SStr (s : string)
| SBool (b : bool).

(** [Dict[str, Union[float, int, str, bool]]]. *)
Definition feature_map := list (string * scalar).

Module PredictionInput.
Record t : Type := mk {
  model_id : string;
  features : feature_map;
  metadata : option pydict
}.
(** [data.model_id = v]. *)
Definition set_model_id (v : string) (data : t) : t :=
  mk v (features data) (metadata data).
End PredictionInput.

Module PredictionOutput.
Record t : Type := mk {
  prediction_id : string;
  model_id : string;
  predictions : pydict;
  timestamp : string;
  input_features : feature_map;
  metadata : option pydict
}.
End PredictionOutput.

Module HealthResponse.
Record t : Type := mk {
  status : string;
  version : string;
  models : list string
}.
End HealthResponse.

Definition py_of_scalar (x : scalar) : pyval :=
  match x with
  | SFloat q => PFloat q
  | SInt z => PInt z
  | SStr s => PStr s
  | SBool b => PBool b
  end.

Definition py_of_features (f : feature_map) : pyval :=
  PDict (map (fun kv => (fst kv, py_of_scalar (snd kv))) f).

Definition py_of_metadata (md : option pydict) : pyval :=
  match md with
  | Some d => PDict d
  | None => PNone
  end.

(** Validation against the declared field types. A value of the
    declared type is kept as it is; any other value is refused. *)
Definition scalar_of_py (v : pyval) : option scalar :=
  match v with
  | PFloat q => Some (SFloat q)
  | PInt z => Some (SInt z)
  | PStr s => Some (SStr s)
  | PBool b => Some (SBool b)
  | _ => None
  end.

Fixpoint validate_items (d : pydict) : option feature_map :=
  match d with
  | [] => Some []
  | (k, v) :: d' =>
      match scalar_of_py v, validate_items d' with
      | Some x, Some f => Some ((k, x) :: f)
      | _, _ => None
      end
  end.

Definition validate_features (v : pyval) : option feature_map :=
  match v with
  | PDict d => validate_items d
  | _ => None
  end.

Definition validate_metadata (v : pyval) : option (option pydict) :=
  match v with
  | PNone => Some None
  | PDict d => Some (Some d)
  | _ => None
  end.

(** [prediction_result.dict()], the value handed to [json.dumps]. *)
Definition dict (r : PredictionOutput.t) : pyval :=
  PDict [ ("prediction_id", PStr (PredictionOutput.prediction_id r));
          ("model_id", PStr (PredictionOutput.model_id r));
          ("predictions", PDict (PredictionOutput.predictions r));
          ("timestamp", PStr (PredictionOutput.timestamp r));
          ("input_features", py_of_features (PredictionOutput.input_features r));
          ("metadata", py_of_metadata (PredictionOutput.metadata r)) ].

(** ** The model registry *)

(** A prediction callable: it receives the features and the position
    in the stream of randomness, and returns a result map or raises,
    together with the position it leaves the stream at. *)
Definition capability := pyval -> nat -> (exn + pydict) * nat.

Record model_info : Type := mk_model_info {
  model : pyval;
  predict_fn : capability
}.

Definition registry := list (string * model_info).

(** [int(x)] on a float: truncation toward zero. *)
Definition py_int (x : Q) : Z := Z.quot (Qnum x) (Zpos (Qden x)).

(** [x > y] on floats. *)
Definition py_gt (x y : Q) : bool := negb (Qle_bool x y).

(** What FastAPI answers for the outcome of a handler: the declared
    status of an [HTTPException], 500 for any other exception that
    leaves the handler, 200 for a returned value. *)
Definition http_status {A : Type} (outcome : exn + A) : nat :=
  match outcome with
  | inr _ => 200
  | inl (HTTPException status_code _) => status_code
  | inl (PyException _ _) => 500
  end.

(** A record delivered by the consumer, seen through
    [json.loads(msg.value.decode())]: the decoding raises, or it yields
    a Python value. *)
Definition ConsumerRecord := (exn + pyval)%type.

Definition json_loads (msg : ConsumerRecord) : M pyval :=
  match msg with
  | inl e => raise e
  | inr payload => ret payload
  end.

(** [payload.get(key, default)]; only a dict has the method. *)
Definition payload_get (payload : pyval) (key : string) (default : pyval) : M pyval :=
  match payload with
  | PDict d =>
      ret (match dict_get key d with Some v => v | None => default end)
  | _ => raise (PyException "AttributeError" "get")
  end.

Section Placeholders.

(** [np.random.random()] and [np.random.normal(loc, scale)], each read
    at a position of the stream of randomness. *)
Variable np_random_random : nat -> Q.
Variable np_random_normal : Q -> Q -> nat -> Q.

(** The two stand-in models of the source. *)
Definition placeholder_MODELS : registry :=
  [ ("anomaly_detection",
     mk_model_info PNone
       (fun data n =>
          (inr [ ("anomaly_score", PFloat (np_random_random n));
                 ("is_anomaly", PBool (py_gt (np_random_random (S n)) (8 # 10)%Q)) ],
           S (S n))));
    ("predictive_maintenance",
     mk_model_info PNone
       (fun data n =>
          (inr [ ("remaining_useful_life",
                  PInt (py_int (np_random_normal (1000 # 1)%Q (200 # 1)%Q n)));
                 ("failure_probability", PFloat (np_random_random (S n))) ],
           S (S n)))) ].

End Placeholders.

(** ** Sample data

    Fixed sources of randomness, the registry of the source under
    them, the worlds a process can be in and a few requests, for the
    concrete runs below. *)

Definition sample_random (n : nat) : Q := (1 # 2)%Q.
Definition sample_normal (loc scale : Q) (n : nat) : Q := loc.
Definition sample_uuid4 (n : nat) : string :=
  "uuid-" ++ NilZero.string_of_uint (Nat.to_uint n).
Definition sample_now (n : nat) : string :=
  "2024-01-01T00:00:" ++ NilZero.string_of_uint (Nat.to_uint n).

Definition sample_MODELS : registry :=
  placeholder_MODELS sample_random sample_normal.

(** A registry whose only model raises on every call. *)
Definition raising_MODELS : registry :=
  [ ("broken",
     mk_model_info PNone
       (fun data n => (inl (PyException "ValueError" "bad input"), n))) ].

(** The process before [startup_event], with the broker reachable or not. *)
Definition fresh_world : World := mkWorld None None [] true 0 [] [] [].
Definition offline_world : World := mkWorld None None [] false 0 [] [] [].

(** The process after a successful [start_kafka]. *)
Definition connected_world : World :=
  mkWorld (Some Producer_started) None [Task_pending] true 0
          [Info_producer_started] [] [].

Definition sample_features : feature_map := [("x", SFloat (1 # 1)%Q)].

(** [{"model_id": "anomaly_detection", "features": {"x": 1.0}}]. *)
Definition sample_payload : pydict :=
  [ ("model_id", PStr "anomaly_detection");
    ("features", py_of_features sample_features) ].

(** The same with ["metadata": {"source": "sensor"}]. *)
Definition sample_payload_with_metadata : pydict :=
  sample_payload ++ [("metadata", PDict [("source", PStr "sensor")])].

(** [{"model_id": "anomaly_detection", "features": {}}]. *)
Definition empty_features_payload : pydict :=
  [ ("model_id", PStr "anomaly_detection"); ("features", PDict []) ].

Definition undecodable_record : ConsumerRecord :=
  inl (PyException "JSONDecodeError" "Expecting value").

(** The body [{"model_id": "ignored", "features": {"x": 1.0}}]. *)
Definition sample_request : PredictionInput.t :=
  PredictionInput.mk "ignored" sample_features None.

Definition sample_request_with_metadata : PredictionInput.t :=
  PredictionInput.mk "ignored" sample_features (Some [("source", PStr "sensor")]).

Definition empty_features_request : PredictionInput.t :=
  PredictionInput.mk "anomaly_detection" [] None.

Section Service.

(** [str(uuid.uuid4())] and [datetime.now().isoformat()], each read
    at a position of the stream of randomness. *)
Variable uuid4 : nat -> string.
Variable datetime_now : nat -> string.

(** The registry the service runs with. The source fills it with
    placeholders for models that would be loaded from files, so the
    service is stated over any registry. *)
Variable MODELS : registry.

(** [model_id in MODELS]: a list or a dict cannot be hashed; any
    other value that is not a string equals no key. *)
Definition MODELS_contains (model_id : pyval) : M bool :=
  match model_id with
  | PStr s => ret (dict_mem s MODELS)
  | PList _ | PDict _ => raise (PyException "TypeError" "unhashable type")
  | _ => ret false
  end.

(** [MODELS[model_id]]. *)
Definition MODELS_getitem (model_id : pyval) : M model_info :=
  match model_id with
  | PStr s =>
      match dict_get s MODELS with
      | Some info => ret info
      | None => raise (PyException "KeyError" s)
      end
  | PList _ | PDict _ => raise (PyException "TypeError" "unhashable type")
  | _ => raise (PyException "KeyError" "")
  end.

(** [model_info["predict"](features)]: one call of the callable. *)
Definition call_predict (model_id : pyval) (info : model_info) (features : pyval)
  : M pydict :=
  fun w =>
    let w1 := set_invocations (invocations w ++ [(model_id, features)]) w in
    match predict_fn info features (entropy w1) with
    | (outcome, n) => (outcome, set_entropy n w1)
    end.

(** [PredictionOutput(model_id=..., predictions=..., input_features=...,
    metadata=...)]: the two default factories run, and the fields are
    validated against their declared types. *)
Definition new_PredictionOutput
           (model_id : pyval) (predictions : pydict) (input_features metadata : pyval)
  : M PredictionOutput.t :=
  i <- draw ;;
  t <- draw ;;
  match model_id, validate_features input_features, validate_metadata metadata with
  | PStr m, Some f, Some md =>
      ret (PredictionOutput.mk (uuid4 i) m predictions (datetime_now t) f md)
  | _, _, _ => raise (PyException "ValidationError" "PredictionOutput")
  end.

Definition make_prediction (model_id features metadata : pyval)
  : M PredictionOutput.t :=
  present <- MODELS_contains model_id ;;
  if negb present
  then raise (HTTPException 404 [inl "Model '"; inr model_id; inl "' not found"])
  else
    info <- MODELS_getitem model_id ;;
    predictions <- call_predict model_id info features ;;
    new_PredictionOutput model_id predictions features metadata.

(** The body of the [async for], inside its [try]. *)
Definition process_message (msg : ConsumerRecord) : M unit :=
  payload <- json_loads msg ;;
  logger (Info_received payload) ;;
  model_id <- payload_get payload "model_id" PNone ;;
  features <- payload_get payload "features" (PDict []) ;;
  metadata <- payload_get payload "metadata" (PDict []) ;;
  if negb (truthy model_id) || negb (truthy features)
  then logger Error_invalid_message
  else
    prediction_result <- make_prediction model_id features metadata ;;
    w <- get_world ;;
    match kafka_producer w with
    | Some _ =>
        producer_send KAFKA_OUTPUT_TOPIC (dict prediction_result) ;;
        logger (Info_sent KAFKA_OUTPUT_TOPIC)
    | None => ret tt
    end.

(** One iteration: the body under [except Exception]. *)
Definition handle_message (msg : ConsumerRecord) : M unit :=
  try_except (process_message msg) (fun e => logger (Error_processing e)).

(** [async for msg in consumer], over the records the consumer delivers. *)
Fixpoint consume_loop (msgs : list ConsumerRecord) : M unit :=
  match msgs with
  | [] => ret tt
  | msg :: rest => handle_message msg ;; consume_loop rest
  end.

Definition consume_kafka_messages (msgs : list ConsumerRecord) : M unit :=
  try_except
    (consumer_start ;;
     logger (Info_consumer_started KAFKA_INPUT_TOPIC) ;;
     try_finally (consume_loop msgs) consumer_stop)
    (fun e => logger (Error_consumer e)).

Definition start_kafka : M unit :=
  try_except
    (modify (set_kafka_producer (Some Producer_created)) ;;
     producer_start ;;
     logger Info_producer_started ;;
     create_task)
    (fun e =>
       logger (Error_start_failed e) ;;
       w <- get_world ;;
       match kafka_producer w with
       | Some _ => producer_stop ;; modify (set_kafka_producer None)
       | None => ret tt
       end).

Definition startup_event : M unit := start_kafka.

Definition shutdown_event : M unit :=
  w <- get_world ;;
  match kafka_producer w with
  | Some _ => producer_stop
  | None => ret tt
  end.

Definition health_check : M HealthResponse.t :=
  ret (HealthResponse.mk "healthy" "0.1.0" (keys MODELS)).

Definition predict (model_id : string) (data : PredictionInput.t)
  : M PredictionOutput.t :=
  let data := PredictionInput.set_model_id model_id data in
  make_prediction (PStr model_id)
                  (py_of_features (PredictionInput.features data))
                  (py_of_metadata (PredictionInput.metadata data)).

Definition get_models : M (list string) := ret (keys MODELS).

(** ** Vocabulary of the properties *)

(** Two envelopes that differ at most in [prediction_id] and [timestamp]. *)
Definition same_envelope (r1 r2 : PredictionOutput.t) : Prop :=
  PredictionOutput.model_id r1 = PredictionOutput.model_id r2 /\
  PredictionOutput.predictions r1 = PredictionOutput.predictions r2 /\
  PredictionOutput.input_features r1 = PredictionOutput.input_features r2 /\
  PredictionOutput.metadata r1 = PredictionOutput.metadata r2.

(** What the loop reads from a decoded object. *)
Definition bus_model_id (d : pydict) : pyval :=
  match dict_get "model_id" d with Some v => v | None => PNone end.
Definition bus_features (d : pydict) : pyval :=
  match dict_get "features" d with Some v => v | None => PDict [] end.
Definition bus_metadata (d : pydict) : pyval :=
  match dict_get "metadata" d with Some v => v | None => PDict [] end.

(** A callable that returns on the given features whatever the
    random draws are, and one that raises whatever they are. *)
Definition reliable (info : model_info) (features : pyval) : Prop :=
  forall n, exists preds n', predict_fn info features n = (inr preds, n').
Definition failing (info : model_info) (features : pyval) : Prop :=
  forall n, exists e n', predict_fn info features n = (inl e, n').

(** A record the service can answer: an object naming a registered
    model by a non-empty string, with a non-empty feature map of
    scalars, metadata that is absent, null or an object, and a
    callable that returns on these features. *)
Inductive well_formed : ConsumerRecord -> Prop :=
| well_formed_intro (d : pydict) (m : string) (info : model_info)
                    (f : feature_map) (md : option pydict) :
    bus_model_id d = PStr m -> m <> "" ->
    dict_get m MODELS = Some info ->
    bus_features d = py_of_features f -> f <> [] ->
    validate_metadata (bus_metadata d) = Some md ->
    reliable info (py_of_features f) ->
    well_formed (inr (PDict d)).

(** The ways a record is bad: it does not decode, it is not an
    object, it lacks a model identifier or features, it names a model
    that is not registered, or the model's callable raises. *)
Inductive malformed : ConsumerRecord -> Prop :=
| malformed_decode (e : exn) : malformed (inl e)
| malformed_not_object (v : pyval) :
    (forall d, v <> PDict d) -> malformed (inr v)
| malformed_no_model_id (d : pydict) :
    truthy (bus_model_id d) = false -> malformed (inr (PDict d))
| malformed_no_features (d : pydict) :
    truthy (bus_features d) = false -> malformed (inr (PDict d))
| malformed_model_not_found (d : pydict) (m : string) :
    bus_model_id d = PStr m -> dict_get m MODELS = None ->
    malformed (inr (PDict d))
| malformed_capability (d : pydict) (m : string) (info : model_info) :
    bus_model_id d = PStr m -> dict_get m MODELS = Some info ->
    failing info (bus_features d) ->
    malformed (inr (PDict d)).

(** The record published for an inbound record: the serialized
    envelope, on the output topic, echoing its model and features. *)
Definition answers (msg : ConsumerRecord) (out : string * pyval) : Prop :=
  exists d m f r,
    msg = inr (PDict d) /\
    bus_model_id d = PStr m /\
    bus_features d = py_of_features f /\
    out = (KAFKA_OUTPUT_TOPIC, dict r) /\
    PredictionOutput.model_id r = m /\
    PredictionOutput.input_features r = f.

(** ** Validation *)

Lemma validate_items_py_of_features (f : feature_map) :
  validate_features (py_of_features f) = Some f.
Proof.
  unfold validate_features, py_of_features.
  induction f as [|[k x] f IH]; simpl; [reflexivity|].
  rewrite IH. destruct x; reflexivity.
Qed.

Lemma validate_metadata_py_of_metadata (md : option pydict) :
  validate_metadata (py_of_metadata md) = Some md.
Proof. destruct md; reflexivity. Qed.

Lemma truthy_py_of_features (f : feature_map) :
  f <> [] -> truthy (py_of_features f) = true.
Proof. destruct f; simpl; congruence. Qed.

Lemma truthy_nonempty_str (m : string) : m <> "" -> truthy (PStr m) = true.
Proof.
  intros H. simpl. destruct (String.eqb m "") eqn:E; [|reflexivity].
  apply String.eqb_eq in E. contradiction.
Qed.

Lemma dict_mem_get {A : Type} (k : string) (d : list (string * A)) (v : A) :
  dict_get k d = Some v -> dict_mem k d = true.
Proof. unfold dict_mem. intros ->. reflexivity. Qed.

Lemma dict_get_In_keys {A : Type} (k : string) (d : list (string * A)) (v : A) :
  dict_get k d = Some v -> In k (keys d).
Proof.
  induction d as [|[k' v'] d IH]; simpl; [discriminate|].
  destruct (String.eqb k' k) eqn:E.
  - apply String.eqb_eq in E. auto.
  - auto.
Qed.

(** ** The dispatcher *)

Lemma make_prediction_ok (m : string) (info : model_info)
      (features metadata : pyval) (f : feature_map) (md : option pydict)
      (preds : pydict) (n : nat) (w : World) :
  dict_get m MODELS = Some info ->
  predict_fn info features (entropy w) = (inr preds, n) ->
  validate_features features = Some f ->
  validate_metadata metadata = Some md ->
  make_prediction (PStr m) features metadata w =
    (inr (PredictionOutput.mk (uuid4 n) m preds (datetime_now (S n)) f md),
     set_entropy (S (S n)) (after_call (PStr m) features n w)).
Proof.
  intros Hm Hc Hf Hmd.
  unfold make_prediction, bind, MODELS_contains, MODELS_getitem, ret.
  rewrite (dict_mem_get _ _ _ Hm). simpl. rewrite Hm.
  unfold call_predict. simpl. rewrite Hc.
  unfold new_PredictionOutput, bind, draw. simpl.
  rewrite Hf, Hmd. reflexivity.
Qed.

Lemma make_prediction_raises (m : string) (info : model_info)
      (features metadata : pyval) (e : exn) (n : nat) (w : World) :
  dict_get m MODELS = Some info ->
  predict_fn info features (entropy w) = (inl e, n) ->
  make_prediction (PStr m) features metadata w =
    (inl e, after_call (PStr m) features n w).
Proof.
  intros Hm Hc.
  unfold make_prediction, bind, MODELS_contains, MODELS_getitem, ret.
  rewrite (dict_mem_get _ _ _ Hm). simpl. rewrite Hm.
  unfold call_predict. simpl. rewrite Hc. reflexivity.
Qed.

Lemma make_prediction_not_found (m : string) (features metadata : pyval) (w : World) :
  dict_get m MODELS = None ->
  make_prediction (PStr m) features metadata w =
    (inl (HTTPException 404 [inl "Model '"; inr (PStr m); inl "' not found"]), w).
Proof.
  intros Hm. unfold make_prediction, bind, MODELS_contains, ret, dict_mem.
  rewrite Hm. reflexivity.
Qed.

(** ** One iteration of the ingress loop *)

(** The body on a record the dispatcher answers: the world it leaves
    depends on the producer handle alone. *)
Lemma process_message_dispatched (d : pydict) (m : string) (info : model_info)
      (f : feature_map) (md : option pydict) (preds : pydict) (n : nat) (w : World) :
  bus_model_id d = PStr m -> m <> "" ->
  dict_get m MODELS = Some info ->
  bus_features d = py_of_features f -> f <> [] ->
  validate_metadata (bus_metadata d) = Some md ->
  predict_fn info (py_of_features f) (entropy w) = (inr preds, n) ->
  let r := PredictionOutput.mk (uuid4 n) m preds (datetime_now (S n)) f md in
  let w1 := set_entropy (S (S n))
              (after_call (PStr m) (py_of_features f) n
                 (set_log (log w ++ [Info_received (PDict d)]) w)) in
  process_message (inr (PDict d)) w =
    match kafka_producer w with
    | Some Producer_started =>
        if broker_up w
        then (inr tt,
              set_log (log w1 ++ [Info_sent KAFKA_OUTPUT_TOPIC])
                (set_outbox (outbox w ++ [(KAFKA_OUTPUT_TOPIC, dict r)]) w1))
        else (inl (PyException "KafkaTimeoutError" "metadata"), w1)
    | Some _ => (inl (PyException "ProducerClosed" ""), w1)
    | None => (inr tt, w1)
    end.
Proof.
  intros Hid Hne Hm Hf Hfne Hmd Hc r w1.
  unfold bus_model_id, bus_features, bus_metadata in *.
  unfold process_message, json_loads, payload_get, logger, modify, bind, ret.
  cbv beta iota. rewrite Hid, Hf. cbv beta iota.
  rewrite (truthy_nonempty_str _ Hne), (truthy_py_of_features _ Hfne).
  cbv beta iota delta [negb orb].
  erewrite make_prediction_ok;
    [ | exact Hm | exact Hc | apply validate_items_py_of_features | exact Hmd ].
  unfold get_world, producer_send. cbv beta iota.
  fold r. subst w1. unfold_world.
  destruct (kafka_producer w) as [[| |]|]; try reflexivity.
  destruct (broker_up w); reflexivity.
Qed.

(** The body on a decoded object, after its three reads. *)
Lemma process_message_object (d : pydict) (w : World) :
  process_message (inr (PDict d)) w =
    let w0 := set_log (log w ++ [Info_received (PDict d)]) w in
    if negb (truthy (bus_model_id d)) || negb (truthy (bus_features d))
    then (inr tt, set_log (log w0 ++ [Error_invalid_message]) w0)
    else
      match make_prediction (bus_model_id d) (bus_features d) (bus_metadata d) w0 with
      | (inl e, w1) => (inl e, w1)
      | (inr r, w1) =>
          match kafka_producer w1 with
          | Some _ =>
              match producer_send KAFKA_OUTPUT_TOPIC (dict r) w1 with
              | (inl e, w2) => (inl e, w2)
              | (inr _, w2) =>
                  (inr tt, set_log (log w2 ++ [Info_sent KAFKA_OUTPUT_TOPIC]) w2)
              end
          | None => (inr tt, w1)
          end
      end.
Proof.
  unfold process_message, json_loads, payload_get, logger, modify, bind, ret,
         get_world, bus_model_id, bus_features, bus_metadata.
  cbv beta iota zeta.
  destruct (negb _ || negb _); [reflexivity|].
  destruct (make_prediction _ _ _ _) as [[e|r] w1]; [reflexivity|].
  destruct (kafka_producer w1); reflexivity.
Qed.

(** A dispatch touches neither the producer, the broker, the tasks nor
    the records already published. *)
Lemma make_prediction_frame (model_id features metadata : pyval) (w : World) :
  let w' := snd (make_prediction model_id features metadata w) in
  kafka_producer w' = kafka_producer w /\
  broker_up w' = broker_up w /\
  outbox w' = outbox w /\
  log w' = log w.
Proof.
  unfold make_prediction, bind, MODELS_contains, MODELS_getitem, call_predict,
         new_PredictionOutput, draw, bind, ret, raise.
  destruct model_id as [| b | z | q | s | l | d]; simpl; auto.
  destruct (dict_mem s MODELS); simpl; auto.
  destruct (dict_get s MODELS) as [info|]; simpl; auto.
  destruct (predict_fn info features (entropy w)) as [[e|preds] n]; simpl; auto.
  destruct (validate_features features), (validate_metadata metadata); simpl; auto.
Qed.

(** An iteration never raises: whatever the body raises is logged. *)
Lemma handle_message_returns (msg : ConsumerRecord) (w : World) :
  exists w', handle_message msg w = (inr tt, w').
Proof.
  unfold handle_message, try_except, logger, modify.
  destruct (process_message msg w) as [[e|[]] w']; eauto.
Qed.

(** An iteration on a bad record publishes nothing and leaves the
    producer as it was. *)
Lemma handle_message_malformed (msg : ConsumerRecord) (w : World) :
  malformed msg ->
  exists w',
    handle_message msg w = (inr tt, w') /\
    outbox w' = outbox w /\
    kafka_producer w' = kafka_producer w /\
    broker_up w' = broker_up w.
Proof.
  intros Hbad. unfold handle_message, try_except, logger, modify.
  destruct Hbad as [e | v Hv | d Hid | d Hf | d m Hid Hm | d m info Hid Hm Hfail].
  - eexists; split; [reflexivity|]. unfold_world. auto.
  - assert (E : process_message (inr v) w =
                (inl (PyException "AttributeError" "get"),
                 set_log (log w ++ [Info_received v]) w)).
    { destruct v; try reflexivity. exfalso. eapply Hv. reflexivity. }
    rewrite E. eexists; split; [reflexivity|]. unfold_world. auto.
  - rewrite process_message_object. cbv zeta. rewrite Hid. simpl.
    eexists; split; [reflexivity|]. unfold_world. auto.
  - rewrite process_message_object. cbv zeta. rewrite Hf, orb_true_r.
    eexists; split; [reflexivity|]. unfold_world. auto.
  - rewrite process_message_object. cbv zeta.
    destruct (negb _ || negb _).
    + eexists; split; [reflexivity|]. unfold_world. auto.
    + rewrite Hid, (make_prediction_not_found _ _ _ _ Hm).
      eexists; split; [reflexivity|]. unfold_world. auto.
  - rewrite process_message_object. cbv zeta.
    destruct (negb _ || negb _).
    + eexists; split; [reflexivity|]. unfold_world. auto.
    + rewrite Hid.
      destruct (Hfail (entropy (set_log (log w ++ [Info_received (PDict d)]) w)))
        as (e & n & Hc).
      rewrite (make_prediction_raises _ _ _ _ _ _ _ Hm Hc).
      eexists; split; [reflexivity|]. unfold_world. auto.
Qed.

(** An iteration on a good record, with the producer started and the
    broker reachable, publishes the answer. *)
Lemma handle_message_well_formed (msg : ConsumerRecord) (w : World) :
  well_formed msg ->
  kafka_producer w = Some Producer_started -> broker_up w = true ->
  exists w' out,
    handle_message msg w = (inr tt, w') /\
    outbox w' = outbox w ++ [out] /\
    answers msg out /\
    kafka_producer w' = kafka_producer w /\
    broker_up w' = broker_up w.
Proof.
  intros Hwf Hp Hb.
  destruct Hwf as [d m info f md Hid Hne Hm Hf Hfne Hmd Hrel].
  destruct (Hrel (entropy w)) as (preds & n & Hc).
  unfold handle_message, try_except.
  rewrite (process_message_dispatched d m info f md preds n w Hid Hne Hm Hf Hfne Hmd Hc).
  rewrite Hp, Hb.
  eexists; eexists; split; [reflexivity|].
  unfold_world. repeat split; auto.
  exists d, m, f. eexists. repeat split; eauto.
Qed.

Lemma consume_loop_app (pre post : list ConsumerRecord) (w : World) :
  consume_loop (pre ++ post) w =
    match consume_loop pre w with
    | (inr _, w') => consume_loop post w'
    | (inl e, w') => (inl e, w')
    end.
Proof.
  revert w. induction pre as [|msg pre IH]; intros w; simpl.
  - reflexivity.
  - unfold bind. destruct (handle_message msg w) as [[e|[]] w1]; [reflexivity|].
    apply IH.
Qed.

(** The loop never raises, whatever the records are. *)
Lemma consume_loop_returns (msgs : list ConsumerRecord) (w : World) :
  exists w', consume_loop msgs w = (inr tt, w').
Proof.
  revert w. induction msgs as [|msg msgs IH]; intros w; simpl.
  - eexists. reflexivity.
  - unfold bind. destruct (handle_message_returns msg w) as (w1 & ->). apply IH.
Qed.

(** The loop over good records publishes one answer per record, in order. *)
Lemma consume_loop_well_formed (msgs : list ConsumerRecord) (w : World) :
  Forall well_formed msgs ->
  kafka_producer w = Some Producer_started -> broker_up w = true ->
  exists w' outs,
    consume_loop msgs w = (inr tt, w') /\
    outbox w' = outbox w ++ outs /\
    Forall2 answers msgs outs /\
    kafka_producer w' = Some Producer_started /\
    broker_up w' = true.
Proof.
  intros Hall. revert w.
  induction Hall as [|msg msgs Hwf _ IH]; intros w Hp Hb.
  - exists w, []. rewrite app_nil_r. repeat split; auto.
  - destruct (handle_message_well_formed msg w Hwf Hp Hb)
      as (w1 & out & Hrun & Hout & Hans & Hp1 & Hb1).
    destruct (IH w1) as (w2 & outs & Hrun2 & Hout2 & Hans2 & Hp2 & Hb2);
      [congruence | congruence |].
    exists w2, (out :: outs). simpl. unfold bind. rewrite Hrun.
    repeat split; auto.
    rewrite Hout2, Hout, <- app_assoc. reflexivity.
Qed.

(** ** The two ingress channels *)

(** C1 (as amended). For a registered model named by a non-empty
    string, a non-empty feature map and metadata that the request
    carries (an object or null), a request through [predict] and the
    same request through the ingress loop, with the producer started
    and the callable returning the same result map, give envelopes
    that agree on every field but [prediction_id] and [timestamp]; the
    bus one is published once on the output topic. *)
Theorem C1_channels_agree_on_carried_metadata
        (d : pydict) (data : PredictionInput.t) (m : string) (info : model_info)
        (f : feature_map) (md : option pydict) (preds : pydict)
        (n_api n_bus : nat) (w_api w_bus : World) :
  dict_get m MODELS = Some info -> m <> "" -> f <> [] ->
  dict_get "model_id" d = Some (PStr m) ->
  dict_get "features" d = Some (py_of_features f) ->
  dict_get "metadata" d = Some (py_of_metadata md) ->
  PredictionInput.features data = f ->
  PredictionInput.metadata data = md ->
  kafka_producer w_bus = Some Producer_started -> broker_up w_bus = true ->
  predict_fn info (py_of_features f) (entropy w_api) = (inr preds, n_api) ->
  predict_fn info (py_of_features f) (entropy w_bus) = (inr preds, n_bus) ->
  exists r_api r_bus w1 w2,
    predict m data w_api = (inr r_api, w1) /\
    handle_message (inr (PDict d)) w_bus = (inr tt, w2) /\
    outbox w2 = outbox w_bus ++ [(KAFKA_OUTPUT_TOPIC, dict r_bus)] /\
    same_envelope r_api r_bus.
Proof.
  intros Hm Hne Hfne Hid Hf Hmd Hdf Hdm Hp Hb Ha Hc.
  assert (Bid : bus_model_id d = PStr m) by (unfold bus_model_id; now rewrite Hid).
  assert (Bf : bus_features d = py_of_features f) by (unfold bus_features; now rewrite Hf).
  assert (Bmd : validate_metadata (bus_metadata d) = Some md).
  { unfold bus_metadata. rewrite Hmd. apply validate_metadata_py_of_metadata. }
  do 4 eexists. split; [|split; [|split]].
  - unfold predict. cbn [PredictionInput.set_model_id PredictionInput.features
                         PredictionInput.metadata]. rewrite Hdf, Hdm.
    eapply make_prediction_ok; eauto using validate_items_py_of_features,
                                validate_metadata_py_of_metadata.
  - unfold handle_message, try_except.
    rewrite (process_message_dispatched d m info f md preds n_bus w_bus
               Bid Hne Hm Bf Hfne Bmd Hc).
    rewrite Hp, Hb. reflexivity.
  - unfold_world. reflexivity.
  - repeat split.
Qed.

(** C2. In a run of records of which one is bad (it does not decode,
    lacks a model identifier or features, names an unknown model or
    makes the model raise) and every other one is good, with the
    producer started and the broker reachable, the loop runs to the
    end without raising, and publishes exactly one answer for each
    good record, before and after the bad one, in order. *)
Theorem C2_bad_record_is_isolated
        (pre post : list ConsumerRecord) (bad : ConsumerRecord) (w : World) :
  kafka_producer w = Some Producer_started -> broker_up w = true ->
  Forall well_formed pre -> malformed bad -> Forall well_formed post ->
  exists w' outs_pre outs_post,
    consume_loop (pre ++ bad :: post) w = (inr tt, w') /\
    outbox w' = outbox w ++ outs_pre ++ outs_post /\
    Forall2 answers pre outs_pre /\
    Forall2 answers post outs_post.
Proof.
  intros Hp Hb Hpre Hbad Hpost.
  destruct (consume_loop_well_formed pre w Hpre Hp Hb)
    as (w1 & outs1 & Hrun1 & Hout1 & Hans1 & Hp1 & Hb1).
  destruct (handle_message_malformed bad w1 Hbad)
    as (w2 & Hrun2 & Hout2 & Hp2 & Hb2).
  destruct (consume_loop_well_formed post w2 Hpost)
    as (w3 & outs3 & Hrun3 & Hout3 & Hans3 & _ & _); [congruence | congruence |].
  exists w3, outs1, outs3.
  rewrite consume_loop_app, Hrun1. simpl. unfold bind. rewrite Hrun2.
  repeat split; auto.
  rewrite Hout3, Hout2, Hout1, <- app_assoc. reflexivity.
Qed.

(** ** The dispatcher *)

(** C3. For a model identifier that is not a key of the registry the
    dispatch raises the 404 [HTTPException] and leaves the world as it
    was (no callable is called, no envelope is built); and whenever a
    dispatch returns an envelope, its [model_id] is the identifier
    given and a key of the registry. *)
Theorem C3_unregistered_model_is_not_found :
  (forall (m : string) (features metadata : pyval) (w : World),
      dict_get m MODELS = None ->
      make_prediction (PStr m) features metadata w =
        (inl (HTTPException 404 [inl "Model '"; inr (PStr m); inl "' not found"]), w)) /\
  (forall (model_id features metadata : pyval) (w w' : World) (r : PredictionOutput.t),
      make_prediction model_id features metadata w = (inr r, w') ->
      model_id = PStr (PredictionOutput.model_id r) /\
      In (PredictionOutput.model_id r) (keys MODELS)).
Proof.
  split.
  - intros. now apply make_prediction_not_found.
  - intros model_id features metadata w w' r.
    unfold make_prediction, bind, MODELS_contains, MODELS_getitem, call_predict,
           new_PredictionOutput, draw, bind, ret, raise.
    destruct model_id as [| b | z | q | s | l | d]; simpl; try discriminate.
    unfold dict_mem.
    destruct (dict_get s MODELS) as [info|] eqn:Hs; simpl; [|discriminate].
    destruct (predict_fn info features (entropy w)) as [[e|preds] n]; simpl;
      [discriminate|].
    destruct (validate_features features), (validate_metadata metadata); simpl;
      try discriminate.
    intros E. inversion E; subst; clear E. simpl.
    split; [reflexivity|]. eapply dict_get_In_keys; eauto.
Qed.

(** C4. For a registered model, a feature map and metadata of the
    declared types, when the callable returns, the dispatch returns an
    envelope that echoes the model identifier, the features and the
    metadata, and carries the callable's result map. *)
Theorem C4_dispatch_echoes_its_inputs
        (m : string) (info : model_info) (f : feature_map) (md : option pydict)
        (preds : pydict) (n : nat) (w : World) :
  dict_get m MODELS = Some info ->
  predict_fn info (py_of_features f) (entropy w) = (inr preds, n) ->
  exists r w',
    make_prediction (PStr m) (py_of_features f) (py_of_metadata md) w = (inr r, w') /\
    PredictionOutput.model_id r = m /\
    PredictionOutput.input_features r = f /\
    PredictionOutput.metadata r = md /\
    PredictionOutput.predictions r = preds.
Proof.
  intros Hm Hc. do 2 eexists. split.
  - eapply make_prediction_ok; eauto using validate_items_py_of_features,
                                validate_metadata_py_of_metadata.
  - repeat split.
Qed.

(** C5 (as amended). For a registered model whose callable raises,
    the dispatch raises that same exception, unwrapped, after calling
    the callable exactly once; [predict] lets it through, and the
    answer's status is 500 unless the exception is itself an
    [HTTPException], whose own status is used. *)
Theorem C5_callable_failure_propagates_unwrapped
        (m : string) (info : model_info) (data : PredictionInput.t)
        (e : exn) (n : nat) (w : World) :
  dict_get m MODELS = Some info ->
  predict_fn info (py_of_features (PredictionInput.features data)) (entropy w)
    = (inl e, n) ->
  let features := py_of_features (PredictionInput.features data) in
  let metadata := py_of_metadata (PredictionInput.metadata data) in
  make_prediction (PStr m) features metadata w = (inl e, after_call (PStr m) features n w) /\
  invocations (after_call (PStr m) features n w) = invocations w ++ [(PStr m, features)] /\
  predict m data w = (inl e, after_call (PStr m) features n w) /\
  http_status (fst (predict m data w)) =
    match e with
    | HTTPException status_code _ => status_code
    | PyException _ _ => 500
    end.
Proof.
  intros Hm Hc features metadata.
  assert (E : make_prediction (PStr m) features metadata w =
              (inl e, after_call (PStr m) features n w))
    by (now apply make_prediction_raises with (info := info)).
  assert (P : predict m data w = (inl e, after_call (PStr m) features n w))
    by exact E.
  repeat split; auto.
  rewrite P. destruct e; reflexivity.
Qed.

(** ** The connection manager *)

(** What [shutdown_event] does, in any world: it closes the producer
    when the handle is set, and changes nothing else. *)
Lemma shutdown_event_closes_the_producer_only (w : World) :
  shutdown_event w =
    (inr tt,
     match kafka_producer w with
     | Some _ => set_kafka_producer (Some Producer_closed) w
     | None => w
     end).
Proof.
  unfold shutdown_event, bind, get_world, producer_stop, modify, ret.
  destruct (kafka_producer w); reflexivity.
Qed.

(** C7. When the broker cannot be reached, [startup_event] returns
    without raising, logs the failure, leaves the producer handle at
    [None] and starts no task; [health_check] then answers with
    status ["healthy"] and the registered model identifiers. *)
Theorem C7_unreachable_broker_leaves_api_healthy (w : World) :
  broker_up w = false ->
  exists w',
    startup_event w = (inr tt, w') /\
    kafka_producer w' = None /\
    tasks w' = tasks w /\
    log w' = log w ++ [Error_start_failed
                         (PyException "KafkaConnectionError" "unable to bootstrap")] /\
    health_check w' = (inr (HealthResponse.mk "healthy" "0.1.0" (keys MODELS)), w') /\
    http_status (fst (health_check w')) = 200.
Proof.
  intros Hb. eexists.
  unfold startup_event, start_kafka, try_except, bind, modify, producer_start,
         logger, modify, get_world, producer_stop, create_task.
  unfold_world. rewrite Hb. cbv beta iota. unfold bind, modify. unfold_world.
  split; [reflexivity|]. repeat split.
Qed.

(** ** The HTTP handlers *)

(** C8. For a registered model whose callable returns, [predict]
    returns an envelope whose [model_id] is the identifier of the
    path, and the same envelope whatever [model_id] the body carries. *)
Theorem C8_path_model_id_overrides_body
        (model_id : string) (data : PredictionInput.t) (info : model_info)
        (preds : pydict) (n : nat) (w : World) :
  dict_get model_id MODELS = Some info ->
  predict_fn info (py_of_features (PredictionInput.features data)) (entropy w)
    = (inr preds, n) ->
  exists r w',
    predict model_id data w = (inr r, w') /\
    PredictionOutput.model_id r = model_id /\
    forall body_id : string,
      predict model_id (PredictionInput.set_model_id body_id data) w = (inr r, w').
Proof.
  intros Hm Hc. do 2 eexists. split; [|split].
  - unfold predict. cbn [PredictionInput.set_model_id PredictionInput.features
                         PredictionInput.metadata].
    eapply make_prediction_ok; eauto using validate_items_py_of_features,
                                validate_metadata_py_of_metadata.
  - reflexivity.
  - intros body_id. unfold predict.
    cbn [PredictionInput.set_model_id PredictionInput.features
         PredictionInput.metadata].
    eapply make_prediction_ok; eauto using validate_items_py_of_features,
                                validate_metadata_py_of_metadata.
Qed.

(** ** Records the loop drops *)

(** C9. A decoded object whose features are an empty mapping or
    absent, or whose model identifier is absent or the empty string, is
    skipped by the loop: the iteration returns, calls no callable and
    publishes nothing, and logs the record as invalid. Through
    [predict], a request with an empty feature map for a registered
    model does call the callable, with the empty map. *)
Theorem C9_bus_skips_empty_features
        (d : pydict) (w : World) :
  dict_get "features" d = Some (PDict []) \/ dict_get "features" d = None \/
  dict_get "model_id" d = None \/ dict_get "model_id" d = Some (PStr "") ->
  (exists w',
      handle_message (inr (PDict d)) w = (inr tt, w') /\
      invocations w' = invocations w /\
      outbox w' = outbox w /\
      log w' = log w ++ [Info_received (PDict d); Error_invalid_message]) /\
  (forall (m : string) (info : model_info) (data : PredictionInput.t) (w0 : World),
      dict_get m MODELS = Some info ->
      PredictionInput.features data = [] ->
      invocations (snd (predict m data w0)) = invocations w0 ++ [(PStr m, PDict [])]).
Proof.
  intros Hskip. split.
  - assert (F : negb (truthy (bus_model_id d)) || negb (truthy (bus_features d)) = true).
    { unfold bus_model_id, bus_features.
      destruct Hskip as [H | [H | [H | H]]]; rewrite H; simpl;
        auto using orb_true_r. }
    unfold handle_message, try_except. rewrite process_message_object.
    cbv zeta. rewrite F. eexists. split; [reflexivity|].
    unfold_world. rewrite <- app_assoc. auto.
  - intros m info data w0 Hm Hf. unfold predict.
    cbn [PredictionInput.set_model_id PredictionInput.features
         PredictionInput.metadata]. rewrite Hf.
    destruct (predict_fn info (py_of_features []) (entropy w0)) as [[e|preds] n] eqn:Hc.
    + rewrite (make_prediction_raises _ _ _ _ _ _ _ Hm Hc). reflexivity.
    + rewrite (make_prediction_ok _ _ _ _ [] (PredictionInput.metadata data) _ _ _ Hm Hc
                 eq_refl (validate_metadata_py_of_metadata _)).
      reflexivity.
Qed.

(** C10. With the producer handle at [None], an iteration on a record
    that decodes and dispatches returns without raising, publishes
    nothing and logs no error: the callable was called and its
    envelope is dropped; the loop goes on with the records that
    follow, from the world this iteration leaves. *)
Theorem C10_unset_producer_drops_the_result
        (d : pydict) (m : string) (info : model_info) (f : feature_map)
        (md : option pydict) (preds : pydict) (n : nat) (w : World) :
  kafka_producer w = None ->
  bus_model_id d = PStr m -> m <> "" ->
  dict_get m MODELS = Some info ->
  bus_features d = py_of_features f -> f <> [] ->
  validate_metadata (bus_metadata d) = Some md ->
  predict_fn info (py_of_features f) (entropy w) = (inr preds, n) ->
  exists w',
    handle_message (inr (PDict d)) w = (inr tt, w') /\
    outbox w' = outbox w /\
    log w' = log w ++ [Info_received (PDict d)] /\
    invocations w' = invocations w ++ [(PStr m, py_of_features f)] /\
    forall rest : list ConsumerRecord,
      consume_loop (inr (PDict d) :: rest) w = consume_loop rest w'.
Proof.
  intros Hp Hid Hne Hm Hf Hfne Hmd Hc.
  assert (E : handle_message (inr (PDict d)) w =
              (inr tt,
               set_entropy (S (S n))
                 (after_call (PStr m) (py_of_features f) n
                    (set_log (log w ++ [Info_received (PDict d)]) w)))).
  { unfold handle_message, try_except.
    rewrite (process_message_dispatched d m info f md preds n w
               Hid Hne Hm Hf Hfne Hmd Hc).
    rewrite Hp. reflexivity. }
  eexists. split; [exact E|]. unfold_world. repeat split.
  intros rest. simpl. unfold bind. rewrite E. reflexivity.
Qed.

(** ** What a dispatch and an iteration can change *)

Lemma dict_get_of_In_keys {A : Type} (k : string) (d : list (string * A)) :
  In k (keys d) -> exists v, dict_get k d = Some v.
Proof.
  induction d as [|[k' v'] d IH]; simpl; [tauto|].
  intros [E | H].
  - subst. rewrite String.eqb_refl. eauto.
  - destruct (String.eqb k' k); eauto.
Qed.

Lemma app_one_neq {A : Type} (l : list A) (x : A) : l ++ [x] <> l.
Proof.
  intros E. apply (f_equal (@List.length A)) in E.
  rewrite length_app, Nat.add_1_r in E.
  exact (Nat.neq_succ_diag_l _ E).
Qed.

(** A dispatch leaves the connection state, the log and the outbox
    alone. It either raises before any call, or calls the callable of
    a registered model once, with the features it was given. *)
Lemma make_prediction_effect (model_id features metadata : pyval) (w : World) :
  let o := fst (make_prediction model_id features metadata w) in
  let w1 := snd (make_prediction model_id features metadata w) in
  kafka_producer w1 = kafka_producer w /\
  kafka_consumer_task w1 = kafka_consumer_task w /\
  tasks w1 = tasks w /\
  broker_up w1 = broker_up w /\
  outbox w1 = outbox w /\
  log w1 = log w /\
  ((invocations w1 = invocations w /\ exists e, o = inl e) \/
   (exists m, model_id = PStr m /\ In m (keys MODELS) /\
              invocations w1 = invocations w ++ [(PStr m, features)] /\
              forall r, o = inr r -> PredictionOutput.model_id r = m)).
Proof.
  unfold make_prediction, bind, MODELS_contains, MODELS_getitem, call_predict,
         new_PredictionOutput, draw, bind, ret, raise.
  destruct model_id as [| b | z | q | s | l | d]; simpl;
    try (repeat split; auto; left; split; eauto; fail).
  unfold dict_mem.
  destruct (dict_get s MODELS) as [info|] eqn:Hs; simpl;
    [|repeat split; auto; left; split; eauto].
  pose proof (dict_get_In_keys _ _ _ Hs) as Hin.
  destruct (predict_fn info features (entropy w)) as [[e|preds] n]; simpl.
  - repeat split; auto. right. exists s. repeat split; auto. discriminate.
  - destruct (validate_features features), (validate_metadata metadata); simpl;
      repeat split; auto; right; exists s; repeat split; auto;
      try discriminate.
    intros r E. inversion E. reflexivity.
Qed.

(** What one iteration can do to the world. *)
Lemma handle_message_effect (msg : ConsumerRecord) (w : World) :
  exists w',
    handle_message msg w = (inr tt, w') /\
    kafka_producer w' = kafka_producer w /\
    kafka_consumer_task w' = kafka_consumer_task w /\
    tasks w' = tasks w /\
    broker_up w' = broker_up w /\
    (invocations w' = invocations w \/
     exists m features,
       In m (keys MODELS) /\ truthy features = true /\
       invocations w' = invocations w ++ [(PStr m, features)]) /\
    (outbox w' = outbox w \/
     exists r,
       In (PredictionOutput.model_id r) (keys MODELS) /\
       outbox w' = outbox w ++ [(KAFKA_OUTPUT_TOPIC, dict r)]).
Proof.
  unfold handle_message, try_except, logger, modify.
  destruct msg as [e | v].
  - eexists. split; [reflexivity|]. unfold_world. repeat split; auto.
  - destruct v as [| b | z | q | s | l | d];
      try (eexists; split; [reflexivity|]; unfold_world; repeat split; auto; fail).
    rewrite process_message_object. cbv zeta.
    destruct (negb (truthy (bus_model_id d)) || negb (truthy (bus_features d))) eqn:G.
    { eexists. split; [reflexivity|]. unfold_world. repeat split; auto. }
    apply orb_false_elim in G. destruct G as [_ Gf].
    apply negb_false_iff in Gf.
    pose proof (make_prediction_effect (bus_model_id d) (bus_features d) (bus_metadata d)
                  (set_log (log w ++ [Info_received (PDict d)]) w)) as E.
    cbv zeta in E.
    destruct (make_prediction (bus_model_id d) (bus_features d) (bus_metadata d)
                (set_log (log w ++ [Info_received (PDict d)]) w)) as [o w1].
    cbn [fst snd] in E.
    destruct E as (Ep & Ec & Et & Eb & Eo & El & Ei).
    unfold_world.
    assert (Inv : invocations w1 = invocations w \/
                  exists m features,
                    In m (keys MODELS) /\ truthy features = true /\
                    invocations w1 = invocations w ++ [(PStr m, features)]).
    { destruct Ei as [[Ei _] | (m & _ & Hin & Ei & _)]; [left; exact Ei|].
      right. exists m, (bus_features d). auto. }
    destruct o as [e | r].
    { eexists. split; [reflexivity|]. unfold_world. repeat split; auto. }
    assert (Hr : In (PredictionOutput.model_id r) (keys MODELS)).
    { destruct Ei as [[_ [e He]] | (m & _ & Hin & _ & Hm)]; [discriminate|].
      rewrite (Hm r eq_refl). exact Hin. }
    destruct (kafka_producer w1) as [p|] eqn:Hp.
    + unfold producer_send. rewrite Hp.
      destruct p; [| destruct (broker_up w1) eqn:Hb1 |];
        (eexists; split; [reflexivity|]; unfold_world; repeat split; auto;
         try congruence).
      right. exists r. split; [exact Hr|]. congruence.
    + eexists. split; [reflexivity|]. repeat split; auto; congruence.
Qed.

(** ** The ingress loop as a whole *)

(** The loop returns and leaves the producer handle as it was. *)
Lemma consume_loop_keeps_producer (msgs : list ConsumerRecord) (w : World) :
  exists w',
    consume_loop msgs w = (inr tt, w') /\
    kafka_producer w' = kafka_producer w.
Proof.
  revert w. induction msgs as [|msg msgs IH]; intros w; simpl.
  - exists w. split; reflexivity.
  - unfold bind.
    destruct (handle_message_effect msg w) as (w1 & -> & Hp & _).
    destruct (IH w1) as (w2 & -> & Hp2).
    exists w2. split; [reflexivity | congruence].
Qed.

(** X1. Over any run of records the loop returns without raising and
    leaves the connection state as it found it: the producer handle,
    the [kafka_consumer_task] global, the tasks and the broker. *)
Theorem consume_loop_keeps_connection_state (msgs : list ConsumerRecord) (w : World) :
  exists w',
    consume_loop msgs w = (inr tt, w') /\
    kafka_producer w' = kafka_producer w /\
    kafka_consumer_task w' = kafka_consumer_task w /\
    tasks w' = tasks w /\
    broker_up w' = broker_up w.
Proof.
  revert w. induction msgs as [|msg msgs IH]; intros w; simpl.
  - exists w. repeat split.
  - unfold bind.
    destruct (handle_message_effect msg w) as (w1 & -> & Hp & Hc & Ht & Hb & _).
    destruct (IH w1) as (w2 & -> & Hp2 & Hc2 & Ht2 & Hb2).
    exists w2. repeat split; congruence.
Qed.

(** X2. The loop only appends to the outbox, at most one record per
    inbound record, each on the output topic and each the serialized
    envelope of a registered model. *)
Theorem consume_loop_publishes_at_most_one_per_record
        (msgs : list ConsumerRecord) (w : World) :
  exists w' outs,
    consume_loop msgs w = (inr tt, w') /\
    outbox w' = outbox w ++ outs /\
    List.length outs <= List.length msgs /\
    Forall (fun out =>
              exists r, out = (KAFKA_OUTPUT_TOPIC, dict r) /\
                        In (PredictionOutput.model_id r) (keys MODELS)) outs.
Proof.
  revert w. induction msgs as [|msg msgs IH]; intros w; simpl.
  - exists w, []. rewrite app_nil_r. repeat split; auto.
  - unfold bind.
    destruct (handle_message_effect msg w) as (w1 & -> & _ & _ & _ & _ & _ & Ho).
    destruct (IH w1) as (w2 & outs & -> & Ho2 & Hlen & Hall).
    destruct Ho as [Ho | (r & Hr & Ho)].
    + exists w2, outs. repeat split; auto. congruence.
    + exists w2, ((KAFKA_OUTPUT_TOPIC, dict r) :: outs). repeat split.
      * rewrite Ho2, Ho, <- app_assoc. reflexivity.
      * simpl. apply le_n_S. exact Hlen.
      * constructor; eauto.
Qed.

(** X3. The loop calls a model at most once per inbound record (a
    failed call is not tried again), always a registered model, and
    never with features that are empty or missing. *)
Theorem consume_loop_invokes_at_most_once_per_record
        (msgs : list ConsumerRecord) (w : World) :
  exists w' calls,
    consume_loop msgs w = (inr tt, w') /\
    invocations w' = invocations w ++ calls /\
    List.length calls <= List.length msgs /\
    Forall (fun call =>
              exists m, fst call = PStr m /\ In m (keys MODELS) /\
                        truthy (snd call) = true) calls.
Proof.
  revert w. induction msgs as [|msg msgs IH]; intros w; simpl.
  - exists w, []. rewrite app_nil_r. repeat split; auto.
  - unfold bind.
    destruct (handle_message_effect msg w) as (w1 & -> & _ & _ & _ & _ & Hi & _).
    destruct (IH w1) as (w2 & calls & -> & Hi2 & Hlen & Hall).
    destruct Hi as [Hi | (m & features & Hin & Htr & Hi)].
    + exists w2, calls. repeat split; auto. congruence.
    + exists w2, ((PStr m, features) :: calls). repeat split.
      * rewrite Hi2, Hi, <- app_assoc. reflexivity.
      * simpl. apply le_n_S. exact Hlen.
      * constructor; [exists m; simpl; auto | exact Hall].
Qed.

(** A dispatch for a registered model calls its callable once,
    whatever happens next. *)
Lemma make_prediction_registered_invokes
      (m : string) (info : model_info) (features metadata : pyval) (w : World) :
  dict_get m MODELS = Some info ->
  invocations (snd (make_prediction (PStr m) features metadata w))
    = invocations w ++ [(PStr m, features)].
Proof.
  intros Hm.
  unfold make_prediction, bind, MODELS_contains, MODELS_getitem, call_predict,
         new_PredictionOutput, draw, bind, ret, raise.
  rewrite (dict_mem_get _ _ _ Hm). simpl. rewrite Hm.
  destruct (predict_fn info features (entropy w)) as [[e|preds] n]; simpl;
    [reflexivity|].
  destruct (validate_features features), (validate_metadata metadata); reflexivity.
Qed.

(** X4. With the producer handle set, no record is dropped in
    silence: an iteration either publishes an envelope and ends with
    the log record of the send, or publishes nothing and ends with an
    error record. *)
Theorem handle_message_publishes_or_logs_error (msg : ConsumerRecord) (w : World) :
  kafka_producer w <> None ->
  exists w' l rec,
    handle_message msg w = (inr tt, w') /\
    log w' = log w ++ l ++ [rec] /\
    ((rec = Info_sent KAFKA_OUTPUT_TOPIC /\
      exists r, outbox w' = outbox w ++ [(KAFKA_OUTPUT_TOPIC, dict r)]) \/
     (is_error rec = true /\ outbox w' = outbox w)).
Proof.
  intros Hset. unfold handle_message, try_except, logger, modify.
  destruct msg as [e | v].
  { exists (set_log (log w ++ [Error_processing e]) w), [], (Error_processing e).
    split; [reflexivity|]. unfold_world. auto. }
  destruct v as [| b | z | q | s | l | d];
    try (do 3 eexists; split; [reflexivity|]; unfold_world; rewrite <- app_assoc;
         split; [reflexivity|]; right; auto; fail).
  rewrite process_message_object. cbv zeta.
  destruct (negb (truthy (bus_model_id d)) || negb (truthy (bus_features d))).
  { do 3 eexists. split; [reflexivity|]. unfold_world.
    rewrite <- app_assoc. split; [reflexivity|]. right. auto. }
  pose proof (make_prediction_effect (bus_model_id d) (bus_features d) (bus_metadata d)
                (set_log (log w ++ [Info_received (PDict d)]) w)) as E.
  cbv zeta in E.
  destruct (make_prediction (bus_model_id d) (bus_features d) (bus_metadata d)
              (set_log (log w ++ [Info_received (PDict d)]) w)) as [o w1].
  cbn [fst snd] in E. destruct E as (Ep & _ & _ & _ & Eo & El & _).
  unfold_world.
  destruct o as [e | r].
  { do 3 eexists. split; [reflexivity|]. unfold_world. rewrite El, <- app_assoc.
    split; [reflexivity|]. right. auto. }
  destruct (kafka_producer w1) as [p|] eqn:Hp; [|congruence].
  unfold producer_send. rewrite Hp.
  destruct p; [| destruct (broker_up w1) |];
    (do 3 eexists; split; [reflexivity|]; unfold_world; rewrite El, <- app_assoc;
     split; [reflexivity|]).
  - right. auto.
  - left. split; [reflexivity|]. exists r. congruence.
  - right. auto.
  - right. auto.
Qed.

(** X5. A decoded object that does not name a registered model by a
    string (a number, a list, an unknown name, nothing at all) makes
    the loop call no model and publish nothing; the iteration ends
    with an error record in the log. *)
Theorem handle_message_without_registered_model (d : pydict) (w : World) :
  (forall m, bus_model_id d = PStr m -> dict_get m MODELS = None) ->
  exists w' l rec,
    handle_message (inr (PDict d)) w = (inr tt, w') /\
    invocations w' = invocations w /\
    outbox w' = outbox w /\
    log w' = log w ++ l ++ [rec] /\
    is_error rec = true.
Proof.
  intros Hno. unfold handle_message, try_except, logger, modify.
  rewrite process_message_object. cbv zeta.
  destruct (negb (truthy (bus_model_id d)) || negb (truthy (bus_features d))).
  { do 3 eexists. split; [reflexivity|]. unfold_world.
    rewrite <- app_assoc. auto. }
  pose proof (make_prediction_effect (bus_model_id d) (bus_features d) (bus_metadata d)
                (set_log (log w ++ [Info_received (PDict d)]) w)) as E.
  cbv zeta in E.
  destruct (make_prediction (bus_model_id d) (bus_features d) (bus_metadata d)
              (set_log (log w ++ [Info_received (PDict d)]) w)) as [o w1].
  cbn [fst snd] in E. destruct E as (_ & _ & _ & _ & Eo & El & Ei).
  unfold_world.
  destruct Ei as [[Ei [e He]] | (m & Hm & Hin & _)].
  - subst o. do 3 eexists. split; [reflexivity|]. unfold_world.
    rewrite El, <- app_assoc. auto.
  - exfalso. destruct (dict_get_of_In_keys _ _ Hin) as [info Hinfo].
    rewrite (Hno m Hm) in Hinfo. discriminate.
Qed.

(** X6. The features are validated after the model has run: for a
    registered model whose callable returns, features that are not a
    mapping of scalars make the dispatch raise [ValidationError], with
    the callable already called once on them. *)
Theorem make_prediction_validates_after_the_call
        (m : string) (info : model_info) (features metadata : pyval)
        (preds : pydict) (n : nat) (w : World) :
  dict_get m MODELS = Some info ->
  predict_fn info features (entropy w) = (inr preds, n) ->
  validate_features features = None ->
  exists w',
    make_prediction (PStr m) features metadata w =
      (inl (PyException "ValidationError" "PredictionOutput"), w') /\
    invocations w' = invocations w ++ [(PStr m, features)] /\
    outbox w' = outbox w.
Proof.
  intros Hm Hc Hv.
  unfold make_prediction, bind, MODELS_contains, MODELS_getitem, call_predict,
         new_PredictionOutput, draw, bind, ret, raise.
  rewrite (dict_mem_get _ _ _ Hm). simpl. rewrite Hm, Hc. simpl. rewrite Hv.
  eexists. split; [reflexivity|]. split; reflexivity.
Qed.

(** X7. A model identifier that is not a string is never looked up:
    a list or a dict raises [TypeError], any other value is answered
    as not found; in both cases the world is left as it was. *)
Theorem make_prediction_on_non_string_id
        (model_id features metadata : pyval) (w : World) :
  (forall s, model_id <> PStr s) ->
  make_prediction model_id features metadata w =
    (inl match model_id with
         | PList _ | PDict _ => PyException "TypeError" "unhashable type"
         | _ => HTTPException 404 [inl "Model '"; inr model_id; inl "' not found"]
         end,
     w).
Proof.
  intros Hns. destruct model_id; try reflexivity.
  exfalso. eapply Hns. reflexivity.
Qed.

(** X8. [get_models] and [health_check] list the same identifiers and
    leave the world alone, and the identifiers listed are exactly
    those the dispatcher accepts: an identifier is listed if and only
    if a dispatch for it is not answered "not found" on the spot. *)
Theorem listed_models_are_the_dispatchable_ones
        (m : string) (features metadata : pyval) (w : World) :
  exists l,
    get_models w = (inr l, w) /\
    health_check w = (inr (HealthResponse.mk "healthy" "0.1.0" l), w) /\
    (In m l <->
     make_prediction (PStr m) features metadata w <>
       (inl (HTTPException 404 [inl "Model '"; inr (PStr m); inl "' not found"]), w)).
Proof.
  exists (keys MODELS). split; [reflexivity|]. split; [reflexivity|]. split.
  - intros Hin E. destruct (dict_get_of_In_keys _ _ Hin) as [info Hinfo].
    pose proof (make_prediction_registered_invokes m info features metadata w Hinfo) as Hi.
    rewrite E in Hi. simpl in Hi. symmetry in Hi. exact (app_one_neq _ _ Hi).
  - intros Hne. destruct (dict_get m MODELS) as [info|] eqn:Hm.
    + eapply dict_get_In_keys; eauto.
    + exfalso. apply Hne. now apply make_prediction_not_found.
Qed.

(** X9. [predict] with a path identifier that is not registered is
    answered 404 with the world unchanged, whatever the body says,
    also when the body names a registered model. *)
Theorem predict_unknown_path_is_404
        (model_id : string) (data : PredictionInput.t) (w : World) :
  dict_get model_id MODELS = None ->
  predict model_id data w =
    (inl (HTTPException 404 [inl "Model '"; inr (PStr model_id); inl "' not found"]), w) /\
  http_status (fst (predict model_id data w)) = 404.
Proof.
  intros Hm.
  assert (E : predict model_id data w =
              (inl (HTTPException 404
                      [inl "Model '"; inr (PStr model_id); inl "' not found"]), w))
    by (unfold predict; now apply make_prediction_not_found).
  split; [exact E|]. rewrite E. reflexivity.
Qed.

(** X10. What the service publishes is not a request it would accept:
    an envelope delivered back on the input topic has no ["features"]
    key, so the iteration skips it, calling no model and publishing
    nothing. *)
Theorem published_envelope_is_skipped_as_input (r : PredictionOutput.t) (w : World) :
  exists w',
    handle_message (inr (dict r)) w = (inr tt, w') /\
    invocations w' = invocations w /\
    outbox w' = outbox w /\
    log w' = log w ++ [Info_received (dict r); Error_invalid_message].
Proof.
  unfold handle_message, try_except, dict.
  rewrite process_message_object. cbv zeta.
  assert (F : bus_features
                [("prediction_id", PStr (PredictionOutput.prediction_id r));
                 ("model_id", PStr (PredictionOutput.model_id r));
                 ("predictions", PDict (PredictionOutput.predictions r));
                 ("timestamp", PStr (PredictionOutput.timestamp r));
                 ("input_features", py_of_features (PredictionOutput.input_features r));
                 ("metadata", py_of_metadata (PredictionOutput.metadata r))]
              = PDict []) by reflexivity.
  rewrite F. cbn [truthy negb]. rewrite orb_true_r.
  eexists. split; [reflexivity|]. unfold_world. rewrite <- app_assoc. auto.
Qed.

(** ** The consumer task and the connection manager *)

(** X11. [consume_kafka_messages] never raises and never touches the
    producer handle. When the broker cannot be reached the consumer
    does not start: the failure is logged and no record is read.
    Otherwise the start is logged and the records go through the loop. *)
Theorem consume_kafka_messages_absorbs_failures
        (msgs : list ConsumerRecord) (w : World) :
  exists w',
    consume_kafka_messages msgs w = (inr tt, w') /\
    kafka_producer w' = kafka_producer w /\
    (broker_up w = false ->
     w' = set_log (log w ++ [Error_consumer
                               (PyException "KafkaConnectionError"
                                            "unable to bootstrap")]) w) /\
    (broker_up w = true ->
     consume_loop msgs (set_log (log w ++ [Info_consumer_started KAFKA_INPUT_TOPIC]) w)
       = (inr tt, w')).
Proof.
  unfold consume_kafka_messages, try_except, bind, consumer_start, logger, modify,
         try_finally, consumer_stop, ret.
  destruct (broker_up w) eqn:Hb.
  - destruct (consume_loop_keeps_producer msgs
                (set_log (log w ++ [Info_consumer_started KAFKA_INPUT_TOPIC]) w))
      as (w1 & Hrun & Hp).
    rewrite Hrun. exists w1. split; [reflexivity|]. split; [exact Hp|].
    split; [discriminate | reflexivity].
  - eexists. split; [reflexivity|]. split; [reflexivity|].
    split; [reflexivity | discriminate].
Qed.

(** X12. [start_kafka] never raises and never assigns
    [kafka_consumer_task]. With the broker reachable it leaves a
    started producer and exactly one more pending task; otherwise it
    leaves the handle at [None] and creates no task. *)
Theorem start_kafka_outcome (w : World) :
  exists w',
    start_kafka w = (inr tt, w') /\
    kafka_consumer_task w' = kafka_consumer_task w /\
    outbox w' = outbox w /\
    invocations w' = invocations w /\
    if broker_up w
    then kafka_producer w' = Some Producer_started /\
         tasks w' = tasks w ++ [Task_pending] /\
         log w' = log w ++ [Info_producer_started]
    else kafka_producer w' = None /\ tasks w' = tasks w.
Proof.
  unfold start_kafka, try_except, bind, modify, producer_start, logger, modify,
         get_world, producer_stop, create_task.
  unfold_world.
  destruct (broker_up w) eqn:Hb; cbv beta iota; unfold bind, modify; unfold_world;
    eexists; (split; [reflexivity|]); unfold_world; rewrite ?Hb; repeat split.
Qed.

(** X13. [shutdown_event] never raises, changes nothing but the
    producer (closed when the handle is set), and is idempotent: a
    second shutdown leaves the world of the first. *)
Theorem shutdown_event_is_idempotent (w : World) :
  exists w1,
    shutdown_event w = (inr tt, w1) /\
    shutdown_event w1 = (inr tt, w1) /\
    kafka_producer w1 =
      match kafka_producer w with
      | Some _ => Some Producer_closed
      | None => None
      end /\
    tasks w1 = tasks w /\
    kafka_consumer_task w1 = kafka_consumer_task w /\
    log w1 = log w /\
    outbox w1 = outbox w.
Proof.
  rewrite shutdown_event_closes_the_producer_only.
  eexists. split; [reflexivity|].
  rewrite shutdown_event_closes_the_producer_only.
  destruct (kafka_producer w) eqn:Hp; unfold_world; rewrite ?Hp; repeat split.
Qed.

End Service.

(** ** Concrete runs *)

Lemma placeholder_anomaly_detection_reliable (features : pyval) :
  reliable
    (mk_model_info PNone
       (fun data n =>
          (inr [ ("anomaly_score", PFloat (sample_random n));
                 ("is_anomaly", PBool (py_gt (sample_random (S n)) (8 # 10)%Q)) ],
           S (S n))))
    features.
Proof. intros n. do 2 eexists. reflexivity. Qed.

Lemma sample_payload_well_formed :
  well_formed sample_MODELS (inr (PDict sample_payload)).
Proof.
  eapply well_formed_intro with (m := "anomaly_detection") (f := sample_features)
                                (md := Some []);
    try reflexivity; try discriminate.
  apply placeholder_anomaly_detection_reliable.
Qed.

Lemma sample_payload_with_metadata_well_formed :
  well_formed sample_MODELS (inr (PDict sample_payload_with_metadata)).
Proof.
  eapply well_formed_intro with (m := "anomaly_detection") (f := sample_features)
                                (md := Some [("source", PStr "sensor")]);
    try reflexivity; try discriminate.
  apply placeholder_anomaly_detection_reliable.
Qed.

(** The claim of C1 fails as stated. With metadata left out of the
    request, [predict] answers with metadata [None] and the loop
    publishes metadata [{}]; and with an empty feature map, [predict]
    answers while the loop publishes nothing. *)
Lemma C1_channels_differ_on_omitted_metadata :
  exists r_api r_bus w1 w2 r_empty w3 w4,
    predict sample_uuid4 sample_now sample_MODELS "anomaly_detection"
            sample_request connected_world = (inr r_api, w1) /\
    handle_message sample_uuid4 sample_now sample_MODELS
                   (inr (PDict sample_payload)) connected_world = (inr tt, w2) /\
    outbox w2 = [(KAFKA_OUTPUT_TOPIC, dict r_bus)] /\
    PredictionOutput.metadata r_api = None /\
    PredictionOutput.metadata r_bus = Some [] /\
    ~ same_envelope r_api r_bus /\
    predict sample_uuid4 sample_now sample_MODELS "anomaly_detection"
            empty_features_request connected_world = (inr r_empty, w3) /\
    handle_message sample_uuid4 sample_now sample_MODELS
                   (inr (PDict empty_features_payload)) connected_world = (inr tt, w4) /\
    outbox w4 = [].
Proof.
  eexists.
  exists (PredictionOutput.mk (sample_uuid4 2) "anomaly_detection"
            [ ("anomaly_score", PFloat (1 # 2)%Q); ("is_anomaly", PBool false) ]
            (sample_now 3) sample_features (Some [])).
  do 5 eexists.
  split; [reflexivity|]. split; [reflexivity|]. split; [reflexivity|].
  split; [reflexivity|]. split; [reflexivity|].
  split; [intros (_ & _ & _ & H); discriminate H|].
  split; [reflexivity|]. split; reflexivity.
Qed.

Lemma C1_witness :
  exists r_api r_bus w1 w2,
    predict sample_uuid4 sample_now sample_MODELS "anomaly_detection"
            sample_request_with_metadata fresh_world = (inr r_api, w1) /\
    handle_message sample_uuid4 sample_now sample_MODELS
                   (inr (PDict sample_payload_with_metadata)) connected_world
      = (inr tt, w2) /\
    outbox w2 = outbox connected_world ++ [(KAFKA_OUTPUT_TOPIC, dict r_bus)] /\
    same_envelope r_api r_bus.
Proof.
  eapply (C1_channels_agree_on_carried_metadata
            sample_uuid4 sample_now sample_MODELS
            sample_payload_with_metadata sample_request_with_metadata
            "anomaly_detection" _ sample_features
            (Some [("source", PStr "sensor")]) _ _ _ fresh_world connected_world);
    try reflexivity; discriminate.
Defined.

Lemma C2_witness :
  exists w' outs_pre outs_post,
    consume_loop sample_uuid4 sample_now sample_MODELS
                 ([inr (PDict sample_payload)] ++ undecodable_record
                    :: [inr (PDict sample_payload_with_metadata)])
                 connected_world = (inr tt, w') /\
    outbox w' = outbox connected_world ++ outs_pre ++ outs_post /\
    Forall2 (answers) [inr (PDict sample_payload)] outs_pre /\
    Forall2 (answers) [inr (PDict sample_payload_with_metadata)] outs_post.
Proof.
  apply (C2_bad_record_is_isolated sample_uuid4 sample_now sample_MODELS).
  - reflexivity.
  - reflexivity.
  - constructor; [apply sample_payload_well_formed | constructor].
  - apply malformed_decode.
  - constructor; [apply sample_payload_with_metadata_well_formed | constructor].
Defined.

Lemma C3_witness :
  make_prediction sample_uuid4 sample_now sample_MODELS
                  (PStr "unknown_model") (py_of_features sample_features) PNone
                  fresh_world =
    (inl (HTTPException 404
            [inl "Model '"; inr (PStr "unknown_model"); inl "' not found"]),
     fresh_world).
Proof.
  apply (proj1 (C3_unregistered_model_is_not_found
                  sample_uuid4 sample_now sample_MODELS)).
  reflexivity.
Defined.

Lemma C4_witness :
  exists r w',
    make_prediction sample_uuid4 sample_now sample_MODELS
                    (PStr "predictive_maintenance") (py_of_features sample_features)
                    (py_of_metadata (Some [("source", PStr "sensor")]))
                    fresh_world = (inr r, w') /\
    PredictionOutput.model_id r = "predictive_maintenance" /\
    PredictionOutput.input_features r = sample_features /\
    PredictionOutput.metadata r = Some [("source", PStr "sensor")] /\
    PredictionOutput.predictions r =
      [ ("remaining_useful_life", PInt 1000);
        ("failure_probability", PFloat (1 # 2)%Q) ].
Proof.
  eapply (C4_dispatch_echoes_its_inputs sample_uuid4 sample_now sample_MODELS);
    reflexivity.
Defined.

(** The claim of C5 fails as stated: what the dispatch raises when a
    callable raises [ValueError] is that [ValueError] itself, not an
    exception of class [PredictionExecutionError]. *)
Lemma C5_failure_is_not_wrapped :
  exists e w',
    make_prediction sample_uuid4 sample_now raising_MODELS
                    (PStr "broken") (py_of_features sample_features) PNone
                    fresh_world = (inl e, w') /\
    e = PyException "ValueError" "bad input" /\
    exn_class e <> "PredictionExecutionError".
Proof.
  do 2 eexists. split; [reflexivity|]. split; [reflexivity|]. discriminate.
Qed.

Lemma C5_witness :
  make_prediction sample_uuid4 sample_now raising_MODELS (PStr "broken")
                  (py_of_features sample_features) PNone fresh_world =
    (inl (PyException "ValueError" "bad input"),
     after_call (PStr "broken") (py_of_features sample_features) 0 fresh_world) /\
  invocations (after_call (PStr "broken") (py_of_features sample_features) 0 fresh_world)
    = invocations fresh_world ++ [(PStr "broken", py_of_features sample_features)] /\
  predict sample_uuid4 sample_now raising_MODELS "broken" sample_request fresh_world =
    (inl (PyException "ValueError" "bad input"),
     after_call (PStr "broken") (py_of_features sample_features) 0 fresh_world) /\
  http_status (fst (predict sample_uuid4 sample_now raising_MODELS "broken"
                            sample_request fresh_world)) = 500.
Proof.
  eapply (C5_callable_failure_propagates_unwrapped
            sample_uuid4 sample_now raising_MODELS "broken" _ sample_request
            (PyException "ValueError" "bad input") 0 fresh_world);
    reflexivity.
Defined.

(** C6. After a successful [start_kafka] the consumer task is pending
    and [kafka_consumer_task] is still [None]. [shutdown_event] then
    closes the producer and does nothing to the task: it is still
    pending, and an iteration of its loop on a good record still runs,
    calls the model and fails to publish on the closed producer. *)
Theorem C6_shutdown_leaves_consumer_running :
  exists w1 w2 w3,
    start_kafka fresh_world = (inr tt, w1) /\
    kafka_producer w1 = Some Producer_started /\
    tasks w1 = [Task_pending] /\
    kafka_consumer_task w1 = None /\
    shutdown_event w1 = (inr tt, w2) /\
    kafka_producer w2 = Some Producer_closed /\
    tasks w2 = [Task_pending] /\
    kafka_consumer_task w2 = None /\
    handle_message sample_uuid4 sample_now sample_MODELS
                   (inr (PDict sample_payload)) w2 = (inr tt, w3) /\
    invocations w3 = [(PStr "anomaly_detection", py_of_features sample_features)] /\
    outbox w3 = [] /\
    In (Error_processing (PyException "ProducerClosed" "")) (log w3).
Proof.
  do 3 eexists.
  repeat (split; [reflexivity|]).
  simpl. auto.
Qed.

Lemma C7_witness :
  exists w',
    startup_event offline_world = (inr tt, w') /\
    kafka_producer w' = None /\
    tasks w' = tasks offline_world /\
    log w' = log offline_world ++
             [Error_start_failed
                (PyException "KafkaConnectionError" "unable to bootstrap")] /\
    health_check sample_MODELS w' =
      (inr (HealthResponse.mk "healthy" "0.1.0" (keys sample_MODELS)), w') /\
    http_status (fst (health_check sample_MODELS w')) = 200.
Proof.
  apply (C7_unreachable_broker_leaves_api_healthy sample_MODELS offline_world).
  reflexivity.
Defined.

Lemma C8_witness :
  exists r w',
    predict sample_uuid4 sample_now sample_MODELS "anomaly_detection"
            sample_request fresh_world = (inr r, w') /\
    PredictionOutput.model_id r = "anomaly_detection" /\
    forall body_id : string,
      predict sample_uuid4 sample_now sample_MODELS "anomaly_detection"
              (PredictionInput.set_model_id body_id sample_request) fresh_world
        = (inr r, w').
Proof.
  eapply (C8_path_model_id_overrides_body
            sample_uuid4 sample_now sample_MODELS "anomaly_detection"
            sample_request _ _ _ fresh_world);
    reflexivity.
Defined.

Lemma C9_witness :
  (exists w',
      handle_message sample_uuid4 sample_now sample_MODELS
                     (inr (PDict empty_features_payload)) connected_world
        = (inr tt, w') /\
      invocations w' = invocations connected_world /\
      outbox w' = outbox connected_world /\
      log w' = log connected_world ++
               [Info_received (PDict empty_features_payload); Error_invalid_message]) /\
  invocations (snd (predict sample_uuid4 sample_now sample_MODELS "anomaly_detection"
                            empty_features_request connected_world))
    = invocations connected_world ++ [(PStr "anomaly_detection", PDict [])].
Proof.
  destruct (C9_bus_skips_empty_features
              sample_uuid4 sample_now sample_MODELS
              empty_features_payload connected_world
              (or_introl eq_refl)) as [Hbus Hapi].
  split; [exact Hbus|].
  eapply Hapi; reflexivity.
Defined.

Lemma C10_witness :
  exists w',
    handle_message sample_uuid4 sample_now sample_MODELS
                   (inr (PDict sample_payload)) fresh_world = (inr tt, w') /\
    outbox w' = outbox fresh_world /\
    log w' = log fresh_world ++ [Info_received (PDict sample_payload)] /\
    invocations w' = invocations fresh_world ++
                     [(PStr "anomaly_detection", py_of_features sample_features)] /\
    forall rest : list ConsumerRecord,
      consume_loop sample_uuid4 sample_now sample_MODELS
                   (inr (PDict sample_payload) :: rest) fresh_world
        = consume_loop sample_uuid4 sample_now sample_MODELS rest w'.
Proof.
  eapply (C10_unset_producer_drops_the_result
            sample_uuid4 sample_now sample_MODELS sample_payload
            "anomaly_detection" _ sample_features (Some []) _ _ fresh_world);
    try reflexivity; discriminate.
Defined.

(** ** The placeholder registry *)

(** X14. With the two placeholder models of the source, whatever the
    random draws are, [predict] answers 200 for each listed model and
    any request body: the envelope echoes the path's identifier, the
    features and the metadata, and the model was called once. *)
Theorem placeholder_models_always_answer
        (np_random_random : nat -> Q) (np_random_normal : Q -> Q -> nat -> Q)
        (uuid4 datetime_now : nat -> string)
        (model_id : string) (data : PredictionInput.t) (w : World) :
  In model_id (keys (placeholder_MODELS np_random_random np_random_normal)) ->
  exists r w',
    predict uuid4 datetime_now (placeholder_MODELS np_random_random np_random_normal)
            model_id data w = (inr r, w') /\
    http_status (fst (predict uuid4 datetime_now
                        (placeholder_MODELS np_random_random np_random_normal)
                        model_id data w)) = 200 /\
    PredictionOutput.model_id r = model_id /\
    PredictionOutput.input_features r = PredictionInput.features data /\
    PredictionOutput.metadata r = PredictionInput.metadata data /\
    invocations w' = invocations w ++
                     [(PStr model_id, py_of_features (PredictionInput.features data))].
Proof.
  intros Hin.
  assert (E : exists info preds n,
             dict_get model_id (placeholder_MODELS np_random_random np_random_normal)
               = Some info /\
             predict_fn info (py_of_features (PredictionInput.features data)) (entropy w)
               = (inr preds, n)).
  { simpl in Hin. destruct Hin as [<- | [<- | []]]; do 3 eexists; split; reflexivity. }
  destruct E as (info & preds & n & Hm & Hc).
  assert (P : predict uuid4 datetime_now
                (placeholder_MODELS np_random_random np_random_normal) model_id data w
              = (inr (PredictionOutput.mk (uuid4 n) model_id preds (datetime_now (S n))
                        (PredictionInput.features data) (PredictionInput.metadata data)),
                 set_entropy (S (S n))
                   (after_call (PStr model_id)
                      (py_of_features (PredictionInput.features data)) n w))).
  { unfold predict. cbn [PredictionInput.set_model_id PredictionInput.features
                         PredictionInput.metadata].
    eapply make_prediction_ok; eauto using validate_items_py_of_features,
                                validate_metadata_py_of_metadata. }
  do 2 eexists. split; [exact P|]. rewrite P. repeat split.
Qed.

Lemma placeholder_models_always_answer_witness :
  exists r w',
    predict sample_uuid4 sample_now (placeholder_MODELS sample_random sample_normal)
            "predictive_maintenance" empty_features_request offline_world
      = (inr r, w') /\
    http_status (fst (predict sample_uuid4 sample_now
                        (placeholder_MODELS sample_random sample_normal)
                        "predictive_maintenance" empty_features_request offline_world))
      = 200 /\
    PredictionOutput.model_id r = "predictive_maintenance" /\
    PredictionOutput.input_features r = PredictionInput.features empty_features_request /\
    PredictionOutput.metadata r = PredictionInput.metadata empty_features_request /\
    invocations w' = invocations offline_world ++
                     [(PStr "predictive_maintenance",
                       py_of_features (PredictionInput.features empty_features_request))].
Proof.
  apply (placeholder_models_always_answer sample_random sample_normal
           sample_uuid4 sample_now "predictive_maintenance"
           empty_features_request offline_world).
  simpl. auto.
Defined.

Lemma handle_message_publishes_or_logs_error_witness :
  exists w' l rec,
    handle_message sample_uuid4 sample_now sample_MODELS
                   (inr (PDict sample_payload)) connected_world = (inr tt, w') /\
    log w' = log connected_world ++ l ++ [rec] /\
    ((rec = Info_sent KAFKA_OUTPUT_TOPIC /\
      exists r, outbox w' = outbox connected_world ++ [(KAFKA_OUTPUT_TOPIC, dict r)]) \/
     (is_error rec = true /\ outbox w' = outbox connected_world)).
Proof.
  apply (handle_message_publishes_or_logs_error
           sample_uuid4 sample_now sample_MODELS
           (inr (PDict sample_payload)) connected_world).
  discriminate.
Defined.

Lemma handle_message_without_registered_model_witness :
  exists w' l rec,
    handle_message sample_uuid4 sample_now sample_MODELS
                   (inr (PDict [ ("model_id", PInt 5);
                                 ("features", py_of_features sample_features) ]))
                   connected_world = (inr tt, w') /\
    invocations w' = invocations connected_world /\
    outbox w' = outbox connected_world /\
    log w' = log connected_world ++ l ++ [rec] /\
    is_error rec = true.
Proof.
  apply (handle_message_without_registered_model
           sample_uuid4 sample_now sample_MODELS
           [ ("model_id", PInt 5); ("features", py_of_features sample_features) ]
           connected_world).
  intros m H. discriminate H.
Defined.

Lemma make_prediction_validates_after_the_call_witness :
  exists w',
    make_prediction sample_uuid4 sample_now sample_MODELS
                    (PStr "anomaly_detection") (PDict [("x", PList [])]) PNone
                    fresh_world =
      (inl (PyException "ValidationError" "PredictionOutput"), w') /\
    invocations w' = invocations fresh_world ++
                     [(PStr "anomaly_detection", PDict [("x", PList [])])] /\
    outbox w' = outbox fresh_world.
Proof.
  eapply (make_prediction_validates_after_the_call
            sample_uuid4 sample_now sample_MODELS "anomaly_detection" _
            (PDict [("x", PList [])]) PNone _ _ fresh_world);
    reflexivity.
Defined.

Lemma make_prediction_on_non_string_id_witness :
  make_prediction sample_uuid4 sample_now sample_MODELS
                  (PList [PStr "anomaly_detection"])
                  (py_of_features sample_features) PNone connected_world =
    (inl (PyException "TypeError" "unhashable type"), connected_world).
Proof.
  apply (make_prediction_on_non_string_id
           sample_uuid4 sample_now sample_MODELS
           (PList [PStr "anomaly_detection"])
           (py_of_features sample_features) PNone connected_world).
  intros s H. discriminate H.
Defined.

Lemma predict_unknown_path_is_404_witness :
  predict sample_uuid4 sample_now sample_MODELS "unknown_model"
          empty_features_request fresh_world =
    (inl (HTTPException 404
            [inl "Model '"; inr (PStr "unknown_model"); inl "' not found"]),
     fresh_world) /\
  http_status (fst (predict sample_uuid4 sample_now sample_MODELS "unknown_model"
                            empty_features_request fresh_world)) = 404.
Proof.
  apply (predict_unknown_path_is_404
           sample_uuid4 sample_now sample_MODELS "unknown_model"
           empty_features_request fresh_world).
  reflexivity.
Defined.
